(** * Verification of the authentication routes ([src/routes/auth.py])

    The four request handlers [signup], [login], [refresh_token] and
    [logout] are embedded as computations in a state-and-exception monad
    over the persistent store (the users table and the refresh-token
    blacklist) and the internal state of the authentication service.

    Python's [async]/[await] is sequential inside one request; one request
    is one run of the monadic computation. A raised exception ends the
    request but keeps the store as it is at that point: the repository
    commits each write as it is made. *)

From Stdlib Require Import String Ascii List ZArith Bool Lia.
From Stdlib Require Import DecimalString.
Import ListNotations.
Open Scope string_scope.
Open Scope Z_scope.

Set Implicit Arguments.

(* ================================================================= *)
(** * Data model *)

(** [fastapi.status] constants used by the router. *)
Definition HTTP_201_CREATED : Z := 201.
Definition HTTP_401_UNAUTHORIZED : Z := 401.
Definition HTTP_409_CONFLICT : Z := 409.

(** What a handler can raise. [HTTPException] is the framework's error
    response. [AttributeError] is what Python raises when an attribute is
    read from [None]. [ServiceError] stands for any other exception an
    external collaborator raises. *)
Inductive Exn : Type :=
| HTTPException (status_code : Z) (detail : string)
| AttributeError (msg : string)
| ServiceError (msg : string).

Definition is_http_error (e : Exn) : bool :=
  match e with
  | HTTPException _ _ => true
  | _ => false
  end.

(** [src.entity.models.User], with the columns the router reads. *)
Module User.
Record t : Type := mk {
  id : Z;
  email : string;
  full_name : string;
  password : string;
  ban : bool;
  refresh_token : option string
}.

(** [user.refresh_token = token] *)
Definition set_refresh_token (token : option string) (u : t) : t :=
  {| id := id u; email := email u; full_name := full_name u;
     password := password u; ban := ban u; refresh_token := token |}.
End User.

(** [src.schemas.users.UserSchema], the signup body. *)
Module UserSchema.
Record t : Type := mk {
  full_name : string;
  email : string;
  password : string
}.

(** [body.password = h] *)
Definition set_password (h : string) (b : t) : t :=
  {| full_name := full_name b; email := email b; password := h |}.
End UserSchema.

(** [fastapi.security.OAuth2PasswordRequestForm], the login form. *)
Module OAuth2PasswordRequestForm.
Record t : Type := mk {
  username : string;
  password : string
}.
End OAuth2PasswordRequestForm.

(** [fastapi.security.HTTPAuthorizationCredentials]. *)
Module HTTPAuthorizationCredentials.
Record t : Type := mk {
  scheme : string;
  credentials : string
}.
End HTTPAuthorizationCredentials.

(** The dictionary returned by [login] and [refresh_token]
    ([response_model=TokenSchema]). *)
Module TokenSchema.
Record t : Type := mk {
  access_token : string;
  refresh_token : string;
  token_type : string
}.
End TokenSchema.

(** The [data] dictionary handed to the token constructors. *)
Definition Claims : Type := list (string * string).

(** A row of the blacklist: a user id and the token value revoked for it. *)
Definition BlacklistEntry : Type := (Z * option string)%type.

(** The state a request runs against: the two tables behind the
    [AsyncSession] and the state of the authentication service (clock,
    salt generator, ...), of a type [S] the router knows nothing about. *)
Record World (S : Type) : Type := mkWorld {
  users : list User.t;
  blacklist : list BlacklistEntry;
  auth : S
}.

Arguments mkWorld {S} _ _ _.
Arguments users {S} _.
Arguments blacklist {S} _.
Arguments auth {S} _.

Definition set_users {S} (us : list User.t) (w : World S) : World S :=
  mkWorld us (blacklist w) (auth w).
Definition set_blacklist {S} (bl : list BlacklistEntry) (w : World S) : World S :=
  mkWorld (users w) bl (auth w).
Definition set_auth {S} (s : S) (w : World S) : World S :=
  mkWorld (users w) (blacklist w) s.

(* ================================================================= *)
(** * The handler monad: store passing with exceptions *)

Definition M (S A : Type) : Type := World S -> (Exn + A) * World S.

Definition ret {S A} (a : A) : M S A := fun w => (inr a, w).

Definition raise {S A} (e : Exn) : M S A := fun w => (inl e, w).

Definition bind {S A B} (c : M S A) (k : A -> M S B) : M S B :=
  fun w =>
    match c w with
    | (inl e, w') => (inl e, w')
    | (inr a, w') => k a w'
    end.

Notation "x <- c ;; k" := (bind c (fun x => k))
  (at level 61, c at next level, right associativity).
Notation "c ;;; k" := (bind c (fun _ => k))
  (at level 61, right associativity).

(* ================================================================= *)
(** * External collaborators *)

(** The operations of [src.services.auth.auth_service] that the router
    calls and whose code is not part of the router. They are taken as
    parameters. Hashing and token construction may advance the service
    state (salt, clock); verification and decoding only read. *)
Class Auth (S : Type) : Type := {
  get_password_hash : string -> S -> string * S;
  verify_password : string -> string -> bool;
  create_access_token : Claims -> S -> string * S;
  create_refresh_token : Claims -> S -> string * S;
  decode_refresh_token : string -> S -> Exn + string
}.

(** Python's [user.refresh_token != token] for a nullable column and a
    string: [None] differs from every string. *)
Definition token_ne (stored : option string) (token : string) : bool :=
  match stored with
  | Some t => negb (String.eqb t token)
  | None => true
  end.

Module repositories_users.

(** Modelled from the spec: [get_user_by_username(name) -> User|None]
    of [src.repository.users] is missing; it returns the record whose
    username ([full_name]) is [name], if there is one. *)
Definition lookup_username (name : string) (us : list User.t) : option User.t :=
  find (fun u => String.eqb (User.full_name u) name) us.

(** Modelled from the spec: [get_user_by_email(email) -> User|None]
    of [src.repository.users] is missing; it returns the record whose
    email is [email], if there is one. *)
Definition lookup_email (email : string) (us : list User.t) : option User.t :=
  find (fun u => String.eqb (User.email u) email) us.

(** Modelled from the spec: [update_token(user, token|None) -> void]
    of [src.repository.users] is missing; it persists [token] as the
    stored refresh token of the record of [user], identified by its
    id, overwriting any prior value. *)
Definition store_token (user : User.t) (token : option string)
    (us : list User.t) : list User.t :=
  map (fun u => if Z.eqb (User.id u) (User.id user)
                then User.set_refresh_token token u else u) us.

(** Modelled from the spec: the missing [create_user] gives the new
    record an internal id; here the next one after the largest in use. *)
Definition next_id (us : list User.t) : Z :=
  1 + fold_right Z.max 0 (map User.id us).

(** Modelled from the spec: [create_user(data) -> User] of
    [src.repository.users] is missing; it persists one new record built
    from the body, with a fresh id, not banned and with no refresh
    token, and returns it. *)
Definition new_record (body : UserSchema.t) (us : list User.t) : User.t :=
  {| User.id := next_id us;
     User.email := UserSchema.email body;
     User.full_name := UserSchema.full_name body;
     User.password := UserSchema.password body;
     User.ban := false;
     User.refresh_token := None |}.

Section Ops.
Context {S : Type}.

(** Modelled from the spec: the missing [get_user_by_username], as a
    read of the users table. *)
Definition get_user_by_username (name : string) : M S (option User.t) :=
  fun w => (inr (lookup_username name (users w)), w).

(** Modelled from the spec: the missing [get_user_by_email], as a read
    of the users table. *)
Definition get_user_by_email (email : string) : M S (option User.t) :=
  fun w => (inr (lookup_email email (users w)), w).

(** Modelled from the spec: the missing [update_token], as a committed
    write to the users table. *)
Definition update_token (user : User.t) (token : option string) : M S unit :=
  fun w => (inr tt, set_users (store_token user token (users w)) w).

(** Modelled from the spec: the missing [create_user], as a committed
    insertion into the users table. *)
Definition create_user (body : UserSchema.t) : M S User.t :=
  fun w =>
    let new_user := new_record body (users w) in
    (inr new_user, set_users (users w ++ [new_user]) w).
End Ops.

End repositories_users.

(** The service's operations as steps of a request: each runs the
    parameter of the same name on the service state held in the store. *)
Module auth_service.
Section Ops.
Context {S : Type} {svc : Auth S}.

Definition get_password_hash (plain : string) : M S string :=
  fun w => let (h, s) := get_password_hash plain (auth w) in
           (inr h, set_auth s w).

Definition create_access_token (data : Claims) : M S string :=
  fun w => let (t, s) := create_access_token data (auth w) in
           (inr t, set_auth s w).

Definition create_refresh_token (data : Claims) : M S string :=
  fun w => let (t, s) := create_refresh_token data (auth w) in
           (inr t, set_auth s w).

Definition decode_refresh_token (token : string) : M S string :=
  fun w => (decode_refresh_token token (auth w), w).

(** Modelled from the spec: [add_token_to_blacklist(userId, token)]
    of [src.services.auth] is missing; it inserts one blacklist entry
    associating the token value with the user id. *)
Definition add_token_to_blacklist (user_id : Z) (token : option string) : M S unit :=
  fun w => (inr tt, set_blacklist (blacklist w ++ [(user_id, token)]) w).
End Ops.
End auth_service.

(* ================================================================= *)
(** * The router *)

Section Router.
Context {S : Type} {svc : Auth S}.

(** [POST /auth/signup] *)
Definition signup (body : UserSchema.t) : M S User.t :=
  exist_user <- repositories_users.get_user_by_username (UserSchema.full_name body) ;;
  match exist_user with
  | Some _ =>
      raise (HTTPException HTTP_409_CONFLICT "Account already exists")
  | None =>
      h <- auth_service.get_password_hash (UserSchema.password body) ;;
      let body := UserSchema.set_password h body in
      new_user <- repositories_users.create_user body ;;
      ret new_user
  end.

(** [POST /auth/login] *)
Definition login (body : OAuth2PasswordRequestForm.t) : M S TokenSchema.t :=
  user <- repositories_users.get_user_by_username
            (OAuth2PasswordRequestForm.username body) ;;
  match user with
  | None =>
      raise (HTTPException HTTP_401_UNAUTHORIZED "Invalid email")
  | Some user =>
      if negb (verify_password (OAuth2PasswordRequestForm.password body)
                               (User.password user))
      then raise (HTTPException HTTP_401_UNAUTHORIZED "Invalid password")
      else if User.ban user
      then raise (HTTPException HTTP_401_UNAUTHORIZED
                    "You were banned by an administrator")
      else
        access_token <- auth_service.create_access_token [("sub", User.email user)] ;;
        refresh <- auth_service.create_refresh_token [("sub", User.email user)] ;;
        repositories_users.update_token user (Some refresh) ;;;
        ret {| TokenSchema.access_token := access_token;
               TokenSchema.refresh_token := refresh;
               TokenSchema.token_type := "bearer" |}
  end.

(** [GET /auth/refresh_token]. The looked-up user is not tested against
    [None] before [user.refresh_token] is read. *)
Definition refresh_token (credentials : HTTPAuthorizationCredentials.t)
    : M S TokenSchema.t :=
  let token := HTTPAuthorizationCredentials.credentials credentials in
  email <- auth_service.decode_refresh_token token ;;
  user <- repositories_users.get_user_by_email email ;;
  match user with
  | None =>
      raise (AttributeError
               "'NoneType' object has no attribute 'refresh_token'")
  | Some user =>
      if token_ne (User.refresh_token user) token
      then
        repositories_users.update_token user None ;;;
        raise (HTTPException HTTP_401_UNAUTHORIZED "Invalid refresh token")
      else
        access_token <- auth_service.create_access_token [("sub", email)] ;;
        refresh <- auth_service.create_refresh_token [("sub", email)] ;;
        repositories_users.update_token user (Some refresh) ;;;
        ret {| TokenSchema.access_token := access_token;
               TokenSchema.refresh_token := refresh;
               TokenSchema.token_type := "bearer" |}
  end.

(** [POST /auth/logout]. [user] is the record resolved by the
    [get_current_user] dependency before the handler runs. *)
Definition logout (user : User.t) : M S (list (string * string)) :=
  auth_service.add_token_to_blacklist (User.id user) (User.refresh_token user) ;;;
  ret [("message", "Logout successful.")].

End Router.

(* ================================================================= *)
(** * The two awaited phases of signup *)

Section SignupPhases.
Context {S : Type} {svc : Auth S}.

(** Lines 29-31 of [signup]: the awaited lookup and the test on its
    result. The handler gives up control at this [await], and again at the
    one of [create_user]. *)
Definition signup_check (body : UserSchema.t) : M S unit :=
  exist_user <- repositories_users.get_user_by_username (UserSchema.full_name body) ;;
  match exist_user with
  | Some _ =>
      raise (HTTPException HTTP_409_CONFLICT "Account already exists")
  | None => ret tt
  end.

(** Lines 32-35 of [signup]: hashing, the awaited [create_user] and the
    return. *)
Definition signup_create (body : UserSchema.t) : M S User.t :=
  h <- auth_service.get_password_hash (UserSchema.password body) ;;
  let body := UserSchema.set_password h body in
  new_user <- repositories_users.create_user body ;;
  ret new_user.

(** Two signup requests in flight at once, scheduled so that both
    lookups are answered before either record is created. *)
Definition overlapping_signups (body1 body2 : UserSchema.t)
    : M S (User.t * User.t) :=
  signup_check body1 ;;;
  signup_check body2 ;;;
  user1 <- signup_create body1 ;;
  user2 <- signup_create body2 ;;
  ret (user1, user2).

End SignupPhases.

(* ================================================================= *)
(** * The router as a server of requests *)

(** The four routes registered on [router] (prefix [/auth]), each with
    the input its handler receives. For [/logout] that is the user the
    [get_current_user] dependency resolved. *)
Inductive Request : Type :=
| POST_signup (body : UserSchema.t)
| POST_login (body : OAuth2PasswordRequestForm.t)
| GET_refresh_token (credentials : HTTPAuthorizationCredentials.t)
| POST_logout (user : User.t).

Section Serve.
Context {S : Type} {svc : Auth S}.

(** The store one request leaves, whatever it answers. *)
Definition serve (req : Request) (w : World S) : World S :=
  match req with
  | POST_signup body => snd (signup body w)
  | POST_login body => snd (login body w)
  | GET_refresh_token credentials => snd (refresh_token credentials w)
  | POST_logout user => snd (logout user w)
  end.

(** The store a sequence of requests leaves, served one after another. *)
Definition serve_all (reqs : list Request) (w : World S) : World S :=
  fold_left (fun w req => serve req w) reqs w.

End Serve.

(** The columns of a user record other than the stored refresh token. *)
Definition account_columns (u : User.t) : Z * string * string * string * bool :=
  (User.id u, User.email u, User.full_name u, User.password u, User.ban u).

(** The number of signup requests in a sequence. *)
Definition signups (reqs : list Request) : nat :=
  length (filter (fun req => match req with
                             | POST_signup _ => true
                             | _ => false
                             end) reqs).

(** The blacklist entries the logout requests of a sequence ask for, in
    order. *)
Definition logout_entries (reqs : list Request) : list BlacklistEntry :=
  flat_map (fun req =>
              match req with
              | POST_logout user => [(User.id user, User.refresh_token user)]
              | _ => []
              end) reqs.


(* ================================================================= *)
(** * Responses and proof automation *)

Ltac run_handler :=
  unfold signup, login, refresh_token, logout, bind, ret, raise,
    repositories_users.get_user_by_username,
    repositories_users.get_user_by_email,
    repositories_users.update_token,
    repositories_users.create_user,
    auth_service.get_password_hash, auth_service.create_access_token,
    auth_service.create_refresh_token, auth_service.decode_refresh_token,
    auth_service.add_token_to_blacklist,
    set_users, set_auth, set_blacklist; cbn [users blacklist auth].

(** Splits a handler on every test it makes and every collaborator it
    calls. *)
Ltac case_step :=
  match goal with
  | |- context [repositories_users.lookup_username ?n ?us] =>
      destruct (repositories_users.lookup_username n us) eqn:?
  | |- context [repositories_users.lookup_email ?e ?us] =>
      destruct (repositories_users.lookup_email e us) eqn:?
  | |- context [decode_refresh_token ?t ?s] =>
      destruct (decode_refresh_token t s) eqn:?
  | |- context [verify_password ?p ?h] =>
      destruct (verify_password p h) eqn:?
  | |- context [User.ban ?u] => destruct (User.ban u) eqn:?
  | |- context [token_ne ?st ?t] => destruct (token_ne st t) eqn:?
  | |- context [get_password_hash ?p ?s] =>
      destruct (get_password_hash p s) eqn:?
  | |- context [create_access_token ?c ?s] =>
      destruct (create_access_token c s) eqn:?
  | |- context [create_refresh_token ?c ?s] =>
      destruct (create_refresh_token c s) eqn:?
  end.

Ltac case_handler :=
  run_handler; cbn [fst snd negb users blacklist auth];
  repeat (case_step; cbn [fst snd negb users blacklist auth]);
  cbn [fst snd negb users blacklist auth].

Definition bearer_pair (access refresh : string) : TokenSchema.t :=
  {| TokenSchema.access_token := access;
     TokenSchema.refresh_token := refresh;
     TokenSchema.token_type := "bearer" |}.

(** A response the framework turns into an HTTP answer: a returned value
    or an [HTTPException]. *)
Definition answered {A} (r : Exn + A) : bool :=
  match r with
  | inr _ => true
  | inl e => is_http_error e
  end.

(* ================================================================= *)
(** * A concrete authentication service

    A small instance of [Auth], used to run the handlers on concrete
    requests. Its state is a clock; a token is its scope, its subject and
    the clock reading at issue, separated by bars. *)

Module Demo.

Definition stamp (n : nat) : string :=
  NilEmpty.string_of_uint (Nat.to_uint n).

Definition sub_of (data : Claims) : string :=
  match find (fun kv => String.eqb (fst kv) "sub") data with
  | Some kv => snd kv
  | None => ""
  end.

Fixpoint split_bar (s : string) : list string :=
  match s with
  | EmptyString => [EmptyString]
  | String c rest =>
      if Ascii.eqb c "|"%char then EmptyString :: split_bar rest
      else match split_bar rest with
           | [] => [String c EmptyString]
           | hd :: tl => String c hd :: tl
           end
  end.

Definition issue (scope : string) (data : Claims) (now : nat) : string * nat :=
  (scope ++ "|" ++ sub_of data ++ "|" ++ stamp now, S now).

Definition decode (token : string) (now : nat) : Exn + string :=
  match split_bar token with
  | [scope; sub; _] =>
      if String.eqb scope "refresh" then inr sub
      else inl (HTTPException HTTP_401_UNAUTHORIZED "Invalid scope for token")
  | _ => inl (HTTPException HTTP_401_UNAUTHORIZED "Could not validate credentials")
  end.

Definition service : Auth nat := {|
  get_password_hash := fun plain now => ("hashed:" ++ plain, now);
  verify_password := fun plain hashed => String.eqb ("hashed:" ++ plain) hashed;
  create_access_token := issue "access";
  create_refresh_token := issue "refresh";
  decode_refresh_token := decode
|}.

Definition alice : User.t :=
  {| User.id := 1; User.email := "alice@example.com"; User.full_name := "alice";
     User.password := "hashed:pw1"; User.ban := false;
     User.refresh_token := Some "refresh|alice@example.com|0" |}.

Definition bob : User.t :=
  {| User.id := 2; User.email := "bob@example.com"; User.full_name := "bob";
     User.password := "hashed:pw2"; User.ban := true;
     User.refresh_token := Some "refresh|bob@example.com|1" |}.

Definition world0 : World nat := mkWorld [alice; bob] [] 2%nat.

Definition bearer (token : string) : HTTPAuthorizationCredentials.t :=
  {| HTTPAuthorizationCredentials.scheme := "Bearer";
     HTTPAuthorizationCredentials.credentials := token |}.

(** Runs a request on the store a previous request left. *)
Definition then_run {A B} (r : (Exn + A) * World nat) (k : M nat B)
    : (Exn + B) * World nat :=
  k (snd r).

(** The four requests of the end-to-end scenario, each run on the store
    the one before left. *)
Definition scenario_signup : (Exn + User.t) * World nat :=
  signup (svc := service)
    (UserSchema.mk "alice" "alice@example.com" "pw1") (mkWorld [] [] 0%nat).

Definition scenario_login : (Exn + TokenSchema.t) * World nat :=
  then_run scenario_signup
    (login (svc := service) (OAuth2PasswordRequestForm.mk "alice" "pw1")).

Definition scenario_refresh : (Exn + TokenSchema.t) * World nat :=
  then_run scenario_login
    (refresh_token (svc := service) (bearer "refresh|alice@example.com|1")).

Definition scenario_replay : (Exn + TokenSchema.t) * World nat :=
  then_run scenario_refresh
    (refresh_token (svc := service) (bearer "refresh|alice@example.com|1")).





End Demo.

(* ================================================================= *)
(** * Facts about the store *)

Section StoreFacts.
Import repositories_users.

Lemma token_ne_false (stored : option string) (token : string) :
  token_ne stored token = false <-> stored = Some token.
Proof.
  destruct stored as [t|]; simpl.
  - rewrite negb_false_iff, String.eqb_eq. split; congruence.
  - split; discriminate.
Qed.

Lemma token_ne_true (stored : option string) (token : string) :
  token_ne stored token = true <-> stored <> Some token.
Proof.
  rewrite <- token_ne_false. destruct (token_ne stored token); split;
    congruence.
Qed.

(** A lookup by a key that the update leaves alone commutes with the
    update. *)
Lemma find_map_stable {A} (p : A -> bool) (f : A -> A) (l : list A) :
  (forall x, p (f x) = p x) ->
  find p (map f l) = option_map f (find p l).
Proof.
  intros Hp. induction l as [|x l IH]; simpl; [reflexivity|].
  rewrite Hp. destruct (p x); [reflexivity | exact IH].
Qed.

Lemma lookup_email_store_token (e : string) (user : User.t)
    (token : option string) (us : list User.t) :
  lookup_email e us = Some user ->
  lookup_email e (store_token user token us)
  = Some (User.set_refresh_token token user).
Proof.
  intros H. unfold lookup_email, store_token in *.
  rewrite find_map_stable.
  - rewrite H. simpl. now rewrite Z.eqb_refl.
  - intros x. now destruct (User.id x =? User.id user).
Qed.

Lemma lookup_username_store_token (n : string) (user : User.t)
    (token : option string) (us : list User.t) :
  lookup_username n us = Some user ->
  lookup_username n (store_token user token us)
  = Some (User.set_refresh_token token user).
Proof.
  intros H. unfold lookup_username, store_token in *.
  rewrite find_map_stable.
  - rewrite H. simpl. now rewrite Z.eqb_refl.
  - intros x. now destruct (User.id x =? User.id user).
Qed.

(** Records of other users are not touched by a token update. *)
Lemma store_token_other (user x : User.t) (token : option string)
    (us : list User.t) :
  In x us -> User.id x <> User.id user -> In x (store_token user token us).
Proof.
  intros Hin Hid. unfold store_token. apply in_map_iff. exists x.
  split; [|exact Hin].
  destruct (Z.eqb_spec (User.id x) (User.id user)); [contradiction|reflexivity].
Qed.

Lemma store_token_length (user : User.t) (token : option string)
    (us : list User.t) :
  length (store_token user token us) = length us.
Proof. apply length_map. Qed.

Lemma find_snoc_absent {A} (p : A -> bool) (l : list A) (x : A) :
  find p l = None -> p x = true -> find p (l ++ [x]) = Some x.
Proof.
  intros Hl Hx. induction l as [|y l IH]; simpl in *.
  - now rewrite Hx.
  - destruct (p y); [discriminate | now apply IH].
Qed.


End StoreFacts.

(** Finds a record in a users table after token updates, from where it
    was found before them: the updates keep usernames and emails, and
    write the record whose id they were given. *)
Ltac lookup_after_store H :=
  unfold repositories_users.lookup_email, repositories_users.lookup_username,
    repositories_users.store_token in *;
  repeat (rewrite find_map_stable;
          [|intros ?; now destruct (User.id _ =? User.id _)]);
  rewrite H; cbn [option_map User.id User.set_refresh_token];
  repeat (rewrite Z.eqb_refl;
          cbn [option_map User.id User.set_refresh_token]);
  reflexivity.

(* ================================================================= *)
(** * Properties of the handlers *)

Section Signup.
Context {S : Type} {svc : Auth S}.
Import repositories_users.

(** C5: a signup whose username already belongs to a stored user fails
    with 409 Conflict and the message "Account already exists"; the store
    is left as it was, so no record is created. *)
Theorem signup_existing_username_conflict
    (body : UserSchema.t) (w : World S) (existing : User.t) :
  lookup_username (UserSchema.full_name body) (users w) = Some existing ->
  signup body w
  = (inl (HTTPException 409 "Account already exists"), w).
Proof.
  intros H. run_handler. rewrite H. reflexivity.
Qed.


End Signup.

Section Login.
Context {S : Type} {svc : Auth S}.
Import repositories_users.

(** C3: login checks its failure conditions in this order. An unknown
    username gives 401 "Invalid email". A known username with a password
    that does not verify gives 401 "Invalid password", whatever the ban
    flag is. A known username with a verified password and the ban flag
    set gives 401. None of the three touches the store. *)
Theorem login_failure_order
    (body : OAuth2PasswordRequestForm.t) (w : World S) :
  (lookup_username (OAuth2PasswordRequestForm.username body) (users w) = None ->
   login body w = (inl (HTTPException 401 "Invalid email"), w))
  /\
  (forall user : User.t,
     lookup_username (OAuth2PasswordRequestForm.username body) (users w) = Some user ->
     verify_password (OAuth2PasswordRequestForm.password body) (User.password user) = false ->
     login body w = (inl (HTTPException 401 "Invalid password"), w))
  /\
  (forall user : User.t,
     lookup_username (OAuth2PasswordRequestForm.username body) (users w) = Some user ->
     verify_password (OAuth2PasswordRequestForm.password body) (User.password user) = true ->
     User.ban user = true ->
     login body w
     = (inl (HTTPException 401 "You were banned by an administrator"), w)).
Proof.
  repeat split.
  - intros H. run_handler. rewrite H. reflexivity.
  - intros user H Hv. run_handler. rewrite H, Hv. reflexivity.
  - intros user H Hv Hb. run_handler. rewrite H, Hv, Hb. reflexivity.
Qed.

(** C4: a login with a username that is stored, a password that
    verifies and no ban issues an access token and a refresh token, both
    built from the claims [{"sub": user.email}], and returns the pair
    with token type "bearer". After it the record found under the
    username holds the new refresh token in its [refresh_token] field,
    whatever was there, with its other columns as they were; the other
    records and the blacklist are left alone. *)
Theorem login_success_issues_and_persists
    (body : OAuth2PasswordRequestForm.t) (w : World S) (user : User.t)
    (a r : string) (s1 s2 : S) :
  lookup_username (OAuth2PasswordRequestForm.username body) (users w) = Some user ->
  verify_password (OAuth2PasswordRequestForm.password body) (User.password user) = true ->
  User.ban user = false ->
  create_access_token [("sub", User.email user)] (auth w) = (a, s1) ->
  create_refresh_token [("sub", User.email user)] s1 = (r, s2) ->
  fst (login body w)
  = inr {| TokenSchema.access_token := a;
           TokenSchema.refresh_token := r;
           TokenSchema.token_type := "bearer" |}
  /\ (exists stored : User.t,
        lookup_username (OAuth2PasswordRequestForm.username body)
          (users (snd (login body w)))
        = Some stored
        /\ User.refresh_token stored = Some r
        /\ account_columns stored = account_columns user)
  /\ (forall x, In x (users w) -> User.id x <> User.id user ->
        In x (users (snd (login body w))))
  /\ length (users (snd (login body w))) = length (users w)
  /\ blacklist (snd (login body w)) = blacklist w
  /\ auth (snd (login body w)) = s2.
Proof.
  intros H Hv Hb Ha Hr.
  assert (E : login body w
              = (inr (bearer_pair a r),
                 mkWorld (store_token user (Some r) (users w))
                         (blacklist w) s2)).
  { run_handler. rewrite H, Hv, Hb. cbn [negb]. rewrite Ha.
    cbn [users blacklist auth]. rewrite Hr. reflexivity. }
  rewrite E. cbn [fst snd users blacklist auth].
  split; [reflexivity|]. split; [|split; [|split; [|split]]].
  - exists (User.set_refresh_token (Some r) user).
    split; [lookup_after_store H|].
    split; reflexivity.
  - intros x Hin Hid. unfold store_token. apply in_map_iff. exists x.
    split; [|exact Hin].
    destruct (Z.eqb_spec (User.id x) (User.id user));
      [contradiction|reflexivity].
  - unfold store_token. apply length_map.
  - reflexivity.
  - reflexivity.
Qed.

(** C8: a login with a stored username and a password that does not
    verify is answered 401 and leaves the whole store, and with it the
    user's stored refresh token, as it was. *)
Theorem login_wrong_password_store_unchanged
    (body : OAuth2PasswordRequestForm.t) (w : World S) (user : User.t) :
  lookup_username (OAuth2PasswordRequestForm.username body) (users w) = Some user ->
  verify_password (OAuth2PasswordRequestForm.password body) (User.password user) = false ->
  fst (login body w) = inl (HTTPException HTTP_401_UNAUTHORIZED "Invalid password")
  /\ snd (login body w) = w
  /\ lookup_username (OAuth2PasswordRequestForm.username body) (users (snd (login body w)))
     = Some user.
Proof.
  intros H Hv.
  assert (E : login body w = (inl (HTTPException 401 "Invalid password"), w)).
  { run_handler. rewrite H, Hv. reflexivity. }
  rewrite E. simpl. auto.
Qed.

End Login.

Section Refresh.
Context {S : Type} {svc : Auth S}.
Import repositories_users.


(** C2: when the presented token decodes to the email of a stored user
    whose stored refresh token is not the presented one, the handler sets
    that user's stored refresh token to None and fails with 401 and the
    message "Invalid refresh token". *)
Theorem refresh_mismatch_clears_and_rejects
    (cred : HTTPAuthorizationCredentials.t) (w : World S)
    (email : string) (user : User.t) :
  decode_refresh_token (HTTPAuthorizationCredentials.credentials cred) (auth w)
  = inr email ->
  lookup_email email (users w) = Some user ->
  User.refresh_token user <> Some (HTTPAuthorizationCredentials.credentials cred) ->
  refresh_token cred w
  = (inl (HTTPException 401 "Invalid refresh token"),
     mkWorld (store_token user None (users w)) (blacklist w) (auth w))
  /\ lookup_email email (store_token user None (users w))
     = Some (User.set_refresh_token None user)
  /\ User.refresh_token (User.set_refresh_token None user) = None.
Proof.
  intros Hd Hu Hne. repeat split.
  - run_handler. rewrite Hd, Hu. apply token_ne_true in Hne.
    rewrite Hne. reflexivity.
  - now apply lookup_email_store_token.
Qed.

(** C9: the handler answers (with a value or an HTTP error) only when
    the decoded email belongs to a stored user. When the token decodes
    and no user has that email, the handler reads [refresh_token] from
    the missing user: the request ends in an AttributeError, which is not
    an HTTP error, and the store is untouched. *)
Theorem refresh_unknown_email_dereferences_none
    (cred : HTTPAuthorizationCredentials.t) (w : World S) (email : string) :
  decode_refresh_token (HTTPAuthorizationCredentials.credentials cred) (auth w)
  = inr email ->
  (lookup_email email (users w) = None ->
   refresh_token cred w
   = (inl (AttributeError "'NoneType' object has no attribute 'refresh_token'"),
      w))
  /\ (answered (fst (refresh_token cred w)) = true
      <-> lookup_email email (users w) <> None).
Proof.
  intros Hd.
  assert (Hnone : lookup_email email (users w) = None ->
     refresh_token cred w
     = (inl (AttributeError
               "'NoneType' object has no attribute 'refresh_token'"), w)).
  { intros Hu. run_handler. rewrite Hd, Hu. reflexivity. }
  split; [exact Hnone|].
  destruct (lookup_email email (users w)) as [user|] eqn:Hu.
  - split; [discriminate|]. intros _. run_handler. rewrite Hd, Hu.
    destruct (token_ne _ _); [reflexivity|].
    destruct (create_access_token _ _) as [a s1]. cbn [users blacklist auth].
    destruct (create_refresh_token _ _) as [r s2]. reflexivity.
  - rewrite (Hnone eq_refl). simpl. split; [discriminate | congruence].
Qed.

(** C10: the refresh handler does not look at the ban flag. For a banned
    user whose stored refresh token is the presented one, refresh
    succeeds with a new token pair, while a login of the same user with a
    password that verifies is rejected with 401 as banned. *)
Theorem refresh_succeeds_for_banned_user
    (cred : HTTPAuthorizationCredentials.t) (w : World S)
    (email : string) (user : User.t) (a r : string) (s1 s2 : S) :
  decode_refresh_token (HTTPAuthorizationCredentials.credentials cred) (auth w)
  = inr email ->
  lookup_email email (users w) = Some user ->
  User.ban user = true ->
  User.refresh_token user = Some (HTTPAuthorizationCredentials.credentials cred) ->
  create_access_token [("sub", email)] (auth w) = (a, s1) ->
  create_refresh_token [("sub", email)] s1 = (r, s2) ->
  fst (refresh_token cred w) = inr (bearer_pair a r)
  /\ (forall body : OAuth2PasswordRequestForm.t,
        lookup_username (OAuth2PasswordRequestForm.username body) (users w)
        = Some user ->
        verify_password (OAuth2PasswordRequestForm.password body)
                        (User.password user) = true ->
        login body w
        = (inl (HTTPException 401 "You were banned by an administrator"), w)).
Proof.
  intros Hd Hu Hb Ht Ha Hr. split.
  - run_handler. rewrite Hd, Hu. apply token_ne_false in Ht.
    rewrite Ht, Ha. cbn [users blacklist auth]. rewrite Hr. reflexivity.
  - intros body Hn Hv. run_handler. rewrite Hn, Hv, Hb. reflexivity.
Qed.

End Refresh.

Section Logout.
Context {S : Type} {svc : Auth S}.

(** C7: for the authenticated user, logout returns the confirmation
    message and appends exactly one blacklist entry, pairing the user's
    id with the user's current refresh token. The users table, and so
    the stored refresh token and every other field of every user, is
    unchanged. *)
Theorem logout_adds_one_blacklist_entry (user : User.t) (w : World S) :
  fst (logout user w) = inr [("message", "Logout successful.")]
  /\ blacklist (snd (logout user w))
     = (blacklist w ++ [(User.id user, User.refresh_token user)])%list
  /\ length (blacklist (snd (logout user w)))
     = Datatypes.S (length (blacklist w))
  /\ users (snd (logout user w)) = users w
  /\ auth (snd (logout user w)) = auth w.
Proof.
  run_handler. cbn [fst snd blacklist users auth].
  repeat split. rewrite length_app. simpl. lia.
Qed.

End Logout.

(* ================================================================= *)
(** * The handlers on concrete requests

    Each lemma runs one of the theorems above on the store
    [Demo.world0] (alice, and bob who is banned) with the service
    [Demo.service]. *)

Section Runs.
Import Demo repositories_users.

Lemma signup_existing_username_conflict_witness :
  signup (svc := service)
    (UserSchema.mk "alice" "other@example.com" "pw9") world0
  = (inl (HTTPException 409 "Account already exists"), world0).
Proof.
  apply (@signup_existing_username_conflict nat service
           (UserSchema.mk "alice" "other@example.com" "pw9") world0 alice).
  reflexivity.
Defined.



Lemma login_failure_order_witness :
  login (svc := service) (OAuth2PasswordRequestForm.mk "carol" "pw3") world0
  = (inl (HTTPException 401 "Invalid email"), world0)
  /\ login (svc := service) (OAuth2PasswordRequestForm.mk "bob" "wrong") world0
     = (inl (HTTPException 401 "Invalid password"), world0)
  /\ login (svc := service) (OAuth2PasswordRequestForm.mk "bob" "pw2") world0
     = (inl (HTTPException 401 "You were banned by an administrator"), world0).
Proof.
  split; [|split].
  - apply (@login_failure_order nat service
             (OAuth2PasswordRequestForm.mk "carol" "pw3") world0).
    reflexivity.
  - apply (proj1 (proj2 (@login_failure_order nat service
             (OAuth2PasswordRequestForm.mk "bob" "wrong") world0)) bob);
      reflexivity.
  - apply (proj2 (proj2 (@login_failure_order nat service
             (OAuth2PasswordRequestForm.mk "bob" "pw2") world0)) bob);
      reflexivity.
Defined.

Lemma login_success_issues_and_persists_witness :
  fst (login (svc := service)
         (OAuth2PasswordRequestForm.mk "alice" "pw1") world0)
  = inr (bearer_pair "access|alice@example.com|2"
                     "refresh|alice@example.com|3")
  /\ option_map User.refresh_token
       (lookup_username "alice"
          (users (snd (login (svc := service)
                         (OAuth2PasswordRequestForm.mk "alice" "pw1") world0))))
     = Some (Some "refresh|alice@example.com|3")
  /\ In bob (users (snd (login (svc := service)
                           (OAuth2PasswordRequestForm.mk "alice" "pw1") world0)))
  /\ snd (login (svc := service)
            (OAuth2PasswordRequestForm.mk "alice" "pw1") world0)
     = mkWorld
         [User.mk 1 "alice@example.com" "alice" "hashed:pw1" false
            (Some "refresh|alice@example.com|3");
          bob]
         [] 4%nat.
Proof.
  destruct (@login_success_issues_and_persists nat service
              (OAuth2PasswordRequestForm.mk "alice" "pw1") world0 alice
              "access|alice@example.com|2" "refresh|alice@example.com|3"
              3%nat 4%nat eq_refl eq_refl eq_refl eq_refl eq_refl)
    as (Hpair & (stored & Hfound & Htoken & _) & Hothers & _).
  split; [exact Hpair|]. split; [|split].
  - cbn [OAuth2PasswordRequestForm.username] in Hfound.
    rewrite Hfound. cbn [option_map]. now rewrite Htoken.
  - apply Hothers; [cbn; tauto | discriminate].
  - reflexivity.
Defined.

Lemma login_wrong_password_store_unchanged_witness :
  fst (login (svc := service)
         (OAuth2PasswordRequestForm.mk "alice" "guess") world0)
  = inl (HTTPException 401 "Invalid password")
  /\ snd (login (svc := service)
            (OAuth2PasswordRequestForm.mk "alice" "guess") world0)
     = world0.
Proof.
  destruct (@login_wrong_password_store_unchanged nat service
              (OAuth2PasswordRequestForm.mk "alice" "guess") world0 alice
              eq_refl eq_refl) as (Hres & Hstore & _).
  split; assumption.
Defined.



Lemma refresh_mismatch_clears_and_rejects_witness :
  refresh_token (svc := service) (bearer "refresh|alice@example.com|9") world0
  = (inl (HTTPException 401 "Invalid refresh token"),
     mkWorld [User.set_refresh_token None alice; bob] [] 2%nat).
Proof.
  apply (@refresh_mismatch_clears_and_rejects nat service
           (bearer "refresh|alice@example.com|9") world0
           "alice@example.com" alice); [reflexivity | reflexivity | discriminate].
Defined.

Lemma refresh_unknown_email_dereferences_none_witness :
  decode_refresh_token (Auth := service) "refresh|carol@example.com|0" 2%nat
  = inr "carol@example.com"
  /\ refresh_token (svc := service) (bearer "refresh|carol@example.com|0") world0
     = (inl (AttributeError
               "'NoneType' object has no attribute 'refresh_token'"), world0)
  /\ answered (fst (refresh_token (svc := service)
                      (bearer "refresh|carol@example.com|0") world0)) = false.
Proof.
  split; [reflexivity|].
  destruct (@refresh_unknown_email_dereferences_none nat service
              (bearer "refresh|carol@example.com|0") world0
              "carol@example.com" eq_refl) as (Hnone & Hiff).
  split.
  - apply Hnone. reflexivity.
  - apply Bool.not_true_is_false. intros E.
    apply (proj1 Hiff) in E. apply E. reflexivity.
Defined.

Lemma refresh_succeeds_for_banned_user_witness :
  User.ban bob = true
  /\ fst (refresh_token (svc := service)
            (bearer "refresh|bob@example.com|1") world0)
     = inr (bearer_pair "access|bob@example.com|2" "refresh|bob@example.com|3")
  /\ login (svc := service) (OAuth2PasswordRequestForm.mk "bob" "pw2") world0
     = (inl (HTTPException 401 "You were banned by an administrator"), world0).
Proof.
  split; [reflexivity|].
  destruct (@refresh_succeeds_for_banned_user nat service
              (bearer "refresh|bob@example.com|1") world0
              "bob@example.com" bob
              "access|bob@example.com|2" "refresh|bob@example.com|3"
              3%nat 4%nat eq_refl eq_refl eq_refl eq_refl eq_refl eq_refl)
    as (Hrefresh & Hlogin).
  split; [exact Hrefresh|].
  apply Hlogin; reflexivity.
Defined.

End Runs.

(* ================================================================= *)
(** * The end-to-end scenario of the specification

    On an empty store: signup of alice succeeds, her login returns a
    token pair, a refresh with that pair's refresh token returns a second
    pair, and a second refresh with the first refresh token is answered
    401 and leaves no stored token. *)

Section Scenario.
Import Demo repositories_users.

Example scenario_runs :
  fst scenario_login
  = inr (bearer_pair "access|alice@example.com|0" "refresh|alice@example.com|1")
  /\ fst scenario_refresh
     = inr (bearer_pair "access|alice@example.com|2" "refresh|alice@example.com|3")
  /\ fst scenario_replay = inl (HTTPException 401 "Invalid refresh token")
  /\ option_map User.refresh_token
       (lookup_email "alice@example.com" (users (snd scenario_replay)))
     = Some None.
Proof. repeat split. Qed.

End Scenario.

(* ================================================================= *)
(** * What a request can do to the store *)

Section Frame.
Context {S : Type} {svc : Auth S}.
Import repositories_users.

Lemma store_token_columns (user : User.t) (token : option string)
    (us : list User.t) :
  map account_columns (store_token user token us) = map account_columns us.
Proof.
  unfold store_token. rewrite map_map. apply map_ext. intros x.
  now destruct (User.id x =? User.id user).
Qed.

Lemma lookup_username_absent (name : string) (us : list User.t) :
  lookup_username name us = None -> ~ In name (map User.full_name us).
Proof.
  unfold lookup_username. intros Hnone Hin.
  apply in_map_iff in Hin. destruct Hin as (x & Hx & Hin).
  apply (find_none _ _ Hnone) in Hin. rewrite Hx, String.eqb_refl in Hin.
  discriminate.
Qed.

Lemma lookup_email_sound (e : string) (us : list User.t) (u : User.t) :
  lookup_email e us = Some u -> In u us /\ User.email u = e.
Proof.
  unfold lookup_email. intros H. apply find_some in H.
  destruct H as [Hin He]. apply String.eqb_eq in He. now split.
Qed.

Lemma NoDup_snoc {A} (l : list A) (x : A) :
  NoDup l -> ~ In x l -> NoDup (l ++ [x]).
Proof.
  induction 1 as [|y l Hy Hl IH]; intros Hx; simpl.
  - constructor; [intros []|constructor].
  - constructor.
    + rewrite in_app_iff. intros [H|[H|[]]]; [contradiction|].
      apply Hx. now left.
    + apply IH. intros H. apply Hx. now right.
Qed.

(** The users table after a signup: as before, or one record more, built
    from the body, under a username no stored record had. *)
Lemma signup_users (body : UserSchema.t) (w : World S) :
  users (snd (signup body w)) = users w
  \/ (lookup_username (UserSchema.full_name body) (users w) = None
      /\ exists h : string,
           users (snd (signup body w))
           = (users w
              ++ [new_record (UserSchema.set_password h body) (users w)])%list).
Proof.
  case_handler; [left; reflexivity|].
  right. split; [reflexivity|]. eexists. reflexivity.
Qed.

(** The users table after a login: as before, or with one token
    stored. *)
Lemma login_users (body : OAuth2PasswordRequestForm.t) (w : World S) :
  users (snd (login body w)) = users w
  \/ exists (user : User.t) (r : string),
       users (snd (login body w)) = store_token user (Some r) (users w).
Proof.
  case_handler; try (left; reflexivity).
  right. do 2 eexists. reflexivity.
Qed.

(** The users table after a refresh: as before, or with one token
    stored or cleared. *)
Lemma refresh_users (cred : HTTPAuthorizationCredentials.t) (w : World S) :
  users (snd (refresh_token cred w)) = users w
  \/ exists (user : User.t) (t : option string),
       users (snd (refresh_token cred w)) = store_token user t (users w).
Proof.
  case_handler; try (left; reflexivity);
    right; do 2 eexists; reflexivity.
Qed.

Lemma serve_blacklist (req : Request) (w : World S) :
  blacklist (serve req w)
  = (blacklist w ++ logout_entries [req])%list.
Proof.
  destruct req; unfold serve, logout_entries; cbn [flat_map];
    rewrite ?app_nil_r; case_handler; reflexivity.
Qed.

End Frame.

(* ================================================================= *)
(** * Invariants of the store under any sequence of requests *)

Section Invariants.
Context {S : Type} {svc : Auth S}.
Import repositories_users.

Lemma serve_all_snoc (reqs : list Request) (req : Request) (w : World S) :
  serve_all (reqs ++ [req]) w = serve req (serve_all reqs w).
Proof. unfold serve_all. now rewrite fold_left_app. Qed.

Lemma serve_usernames (req : Request) (w : World S) :
  NoDup (map User.full_name (users w)) ->
  NoDup (map User.full_name (users (serve req w))).
Proof.
  intros Hnd. destruct req as [body|body|cred|user]; unfold serve.
  - destruct (signup_users body w) as [->|(Hnone & h & ->)]; [exact Hnd|].
    rewrite map_app. apply NoDup_snoc; [exact Hnd|].
    now apply lookup_username_absent.
  - destruct (login_users body w) as [->|(u & r & ->)]; [exact Hnd|].
    unfold store_token. rewrite map_map.
    erewrite map_ext; [exact Hnd|].
    intros x. now destruct (User.id x =? User.id u).
  - destruct (refresh_users cred w) as [->|(u & t & ->)]; [exact Hnd|].
    unfold store_token. rewrite map_map.
    erewrite map_ext; [exact Hnd|].
    intros x. now destruct (User.id x =? User.id u).
  - exact Hnd.
Qed.

(** X1: served one at a time, requests keep usernames unique. If no
    two stored records share a username, then after any sequence of
    signup, login, refresh and logout requests, each handler running to
    completion before the next starts and whatever each one answers,
    still no two records share a username. Signups that overlap are
    another matter, treated at the end of the file. *)
Theorem usernames_stay_unique (reqs : list Request) (w : World S) :
  NoDup (map User.full_name (users w)) ->
  NoDup (map User.full_name (users (serve_all reqs w))).
Proof.
  intros Hnd. induction reqs as [|req reqs IH] using rev_ind.
  - exact Hnd.
  - rewrite serve_all_snoc. now apply serve_usernames.
Qed.

Lemma serve_columns (req : Request) (w : World S) :
  exists added : list User.t,
    map account_columns (users (serve req w))
    = (map account_columns (users w) ++ map account_columns added)%list
    /\ (length added <= signups [req])%nat.
Proof.
  destruct req as [body|body|cred|user]; unfold serve.
  - destruct (signup_users body w) as [->|(_ & h & ->)].
    + exists []. rewrite app_nil_r. split; [reflexivity|]. cbn. lia.
    + eexists [_]. rewrite map_app. split; [reflexivity|]. cbn. lia.
  - exists []. rewrite app_nil_r. split; [|cbn; lia].
    destruct (login_users body w) as [->|(u & r & ->)]; [reflexivity|].
    apply store_token_columns.
  - exists []. rewrite app_nil_r. split; [|cbn; lia].
    destruct (refresh_users cred w) as [->|(u & t & ->)]; [reflexivity|].
    apply store_token_columns.
  - exists []. rewrite app_nil_r. split; [reflexivity | cbn; lia].
Qed.

(** X2: no request deletes a user or rewrites an account. After any
    sequence of requests the id, email, username, password hash and ban
    flag of every record that was stored are what they were, in the same
    order; records are only added after them, at most one per signup
    request, so that login, refresh and logout add none. *)
Theorem accounts_are_only_appended (reqs : list Request) (w : World S) :
  exists added : list User.t,
    map account_columns (users (serve_all reqs w))
    = (map account_columns (users w) ++ map account_columns added)%list
    /\ (length added <= signups reqs)%nat.
Proof.
  induction reqs as [|req reqs IH] using rev_ind.
  - exists []. rewrite app_nil_r. split; [reflexivity | cbn; lia].
  - rewrite serve_all_snoc. destruct IH as (added & IH & Hlen).
    destruct (serve_columns req (serve_all reqs w)) as (more & Hmore & Hone).
    exists (added ++ more)%list. split.
    + now rewrite Hmore, IH, map_app, app_assoc.
    + unfold signups in *. rewrite filter_app, !length_app. lia.
Qed.

(** X3: the blacklist is written by logout only. After any sequence of
    requests the blacklist is what it was, followed by one entry per
    logout request, in order, pairing the user's id with the refresh
    token of the user; signup, login and refresh add and remove
    nothing. *)
Theorem blacklist_is_the_log_of_logouts (reqs : list Request) (w : World S) :
  blacklist (serve_all reqs w) = (blacklist w ++ logout_entries reqs)%list.
Proof.
  induction reqs as [|req reqs IH] using rev_ind.
  - cbn. now rewrite app_nil_r.
  - rewrite serve_all_snoc, serve_blacklist, IH.
    unfold logout_entries. rewrite flat_map_app. now rewrite app_assoc.
Qed.

End Invariants.

(* ================================================================= *)
(** * Outcomes of single requests *)

Section Outcomes.
Context {S : Type} {svc : Auth S}.
Import repositories_users.

(** X4: a token the service cannot decode ends the refresh at once: the
    handler raises what [decode_refresh_token] raised, looks up no user
    and writes nothing. *)
Theorem refresh_decode_error_propagates
    (cred : HTTPAuthorizationCredentials.t) (w : World S) (e : Exn) :
  decode_refresh_token (HTTPAuthorizationCredentials.credentials cred) (auth w)
  = inl e ->
  refresh_token cred w = (inl e, w).
Proof.
  intros Hd. run_handler. rewrite Hd. reflexivity.
Qed.

Lemma login_success_inv (body : OAuth2PasswordRequestForm.t)
    (w w' : World S) (tok : TokenSchema.t) :
  login body w = (inr tok, w') ->
  exists (user : User.t) (a r : string) (s2 : S),
    lookup_username (OAuth2PasswordRequestForm.username body) (users w)
    = Some user
    /\ verify_password (OAuth2PasswordRequestForm.password body)
                       (User.password user) = true
    /\ User.ban user = false
    /\ tok = bearer_pair a r
    /\ w' = mkWorld (store_token user (Some r) (users w)) (blacklist w) s2.
Proof.
  case_handler; intros H; try discriminate H.
  injection H as <- <-. do 4 eexists. repeat split; eassumption.
Qed.

(** X5: login hands out tokens only to a stored, unbanned user whose
    password verified. Whenever login returns a token pair, the username
    is stored, the given password verifies against that record's hash,
    the record is not banned, the pair's type is "bearer", the record
    found under the username afterwards holds the returned refresh token
    in its [refresh_token] field with its other columns as they were, and
    the blacklist is as it was. *)
Theorem login_success_means_verified_and_unbanned
    (body : OAuth2PasswordRequestForm.t) (w w' : World S)
    (tok : TokenSchema.t) :
  login body w = (inr tok, w') ->
  exists user : User.t,
    lookup_username (OAuth2PasswordRequestForm.username body) (users w)
    = Some user
    /\ verify_password (OAuth2PasswordRequestForm.password body)
                       (User.password user) = true
    /\ User.ban user = false
    /\ TokenSchema.token_type tok = "bearer"
    /\ (exists stored : User.t,
          lookup_username (OAuth2PasswordRequestForm.username body) (users w')
          = Some stored
          /\ User.refresh_token stored = Some (TokenSchema.refresh_token tok)
          /\ account_columns stored = account_columns user)
    /\ blacklist w' = blacklist w.
Proof.
  intros H. apply login_success_inv in H.
  destruct H as (user & a & r & s2 & Hu & Hv & Hb & -> & ->).
  exists user. repeat split; try assumption.
  cbn [users TokenSchema.refresh_token bearer_pair].
  exists (User.set_refresh_token (Some r) user).
  split; [lookup_after_store Hu|].
  split; reflexivity.
Qed.

(** X6: login fails in one way only. Whatever the form and the store,
    an exception raised by login is an HTTP 401, and the store after it
    is the store before: a rejected login writes nothing. *)
Theorem login_failure_is_401_and_writes_nothing
    (body : OAuth2PasswordRequestForm.t) (w w' : World S) (e : Exn) :
  login body w = (inl e, w') ->
  w' = w /\ exists detail : string, e = HTTPException 401 detail.
Proof.
  case_handler; intros H; try discriminate H;
    injection H as <- <-; split; try reflexivity; eexists; reflexivity.
Qed.

Lemma signup_known_username (body : UserSchema.t) (w : World S)
    (u : User.t) :
  lookup_username (UserSchema.full_name body) (users w) = Some u ->
  signup body w = (inl (HTTPException 409 "Account already exists"), w).
Proof. intros H. run_handler. now rewrite H. Qed.

(** X7: a username is accepted at most once. Whatever the first signup
    answered, a second signup under the same username, with any email
    and password, is answered 409 "Account already exists". *)
Theorem signup_twice_conflicts
    (body : UserSchema.t) (email' password' : string) (w : World S) :
  fst (signup (UserSchema.mk (UserSchema.full_name body) email' password')
         (snd (signup body w)))
  = inl (HTTPException 409 "Account already exists").
Proof.
  destruct (lookup_username (UserSchema.full_name body) (users w))
    as [u|] eqn:Hu.
  - rewrite (signup_known_username body w Hu). cbn [snd].
    now rewrite (@signup_known_username
                   (UserSchema.mk (UserSchema.full_name body) email' password')
                   w u Hu).
  - destruct (signup_users body w) as [Hsame|(_ & h & Hnew)].
    + (* the first signup did not add the record: impossible here *)
      exfalso. revert Hsame. run_handler. rewrite Hu.
      destruct (get_password_hash _ _) as [h s1]. cbn [snd users].
      intros Hsame. apply (f_equal (@length _)) in Hsame.
      rewrite length_app in Hsame. cbn in Hsame. lia.
    + erewrite signup_known_username; [reflexivity|].
      cbn [UserSchema.full_name]. rewrite Hnew.
      apply find_snoc_absent; [exact Hu|]. cbn. apply String.eqb_refl.
Qed.

End Outcomes.

(* ================================================================= *)
(** * Sessions: how login and refresh compose *)

Section Sessions.
Context {S : Type} {svc : Auth S}.
Import repositories_users.

Lemma refresh_accepts (cred : HTTPAuthorizationCredentials.t) (w : World S)
    (email : string) (user : User.t) (a r : string) (s1 s2 : S) :
  decode_refresh_token (HTTPAuthorizationCredentials.credentials cred) (auth w)
  = inr email ->
  lookup_email email (users w) = Some user ->
  User.refresh_token user = Some (HTTPAuthorizationCredentials.credentials cred) ->
  create_access_token [("sub", email)] (auth w) = (a, s1) ->
  create_refresh_token [("sub", email)] s1 = (r, s2) ->
  refresh_token cred w
  = (inr (bearer_pair a r),
     mkWorld (store_token user (Some r) (users w)) (blacklist w) s2).
Proof.
  intros Hd Hu Ht Ha Hr. run_handler. rewrite Hd, Hu.
  apply token_ne_false in Ht. rewrite Ht, Ha.
  cbn [users blacklist auth]. rewrite Hr. reflexivity.
Qed.

Lemma refresh_rejects (cred : HTTPAuthorizationCredentials.t) (w : World S)
    (email : string) (user : User.t) :
  decode_refresh_token (HTTPAuthorizationCredentials.credentials cred) (auth w)
  = inr email ->
  lookup_email email (users w) = Some user ->
  User.refresh_token user <> Some (HTTPAuthorizationCredentials.credentials cred) ->
  refresh_token cred w
  = (inl (HTTPException 401 "Invalid refresh token"),
     mkWorld (store_token user None (users w)) (blacklist w) (auth w)).
Proof.
  intros Hd Hu Hne. run_handler. rewrite Hd, Hu.
  apply token_ne_true in Hne. rewrite Hne. reflexivity.
Qed.

Lemma lookup_email_store_token_other (e : string) (user v : User.t)
    (token : option string) (us : list User.t) :
  lookup_email e us = Some v ->
  User.id v <> User.id user ->
  lookup_email e (store_token user token us) = Some v.
Proof.
  intros Hv Hid. unfold lookup_email, store_token in *.
  rewrite find_map_stable.
  - rewrite Hv. cbn.
    destruct (Z.eqb_spec (User.id v) (User.id user)); [contradiction|].
    reflexivity.
  - intros x. now destruct (User.id x =? User.id user).
Qed.

(** X9: presenting a stale token ends the valid session too. When a
    user's stored refresh token is [valid] and another token that decodes
    to the same email is presented, the refresh is answered 401; after
    that the valid token, which would have been accepted before, is
    answered 401 as well and the stored token stays cleared. *)
Theorem stale_token_ends_valid_session
    (stale valid : HTTPAuthorizationCredentials.t) (w : World S)
    (email : string) (user : User.t) :
  decode_refresh_token (HTTPAuthorizationCredentials.credentials stale) (auth w)
  = inr email ->
  decode_refresh_token (HTTPAuthorizationCredentials.credentials valid) (auth w)
  = inr email ->
  lookup_email email (users w) = Some user ->
  User.refresh_token user
  = Some (HTTPAuthorizationCredentials.credentials valid) ->
  HTTPAuthorizationCredentials.credentials stale
  <> HTTPAuthorizationCredentials.credentials valid ->
  (exists pair : TokenSchema.t, fst (refresh_token valid w) = inr pair)
  /\ fst (refresh_token stale w)
     = inl (HTTPException 401 "Invalid refresh token")
  /\ fst (refresh_token valid (snd (refresh_token stale w)))
     = inl (HTTPException 401 "Invalid refresh token")
  /\ lookup_email email
       (users (snd (refresh_token valid (snd (refresh_token stale w)))))
     = Some (User.set_refresh_token None user).
Proof.
  intros Hds Hdv Hu Ht Hne.
  assert (Hstale : User.refresh_token user
                   <> Some (HTTPAuthorizationCredentials.credentials stale))
    by congruence.
  pose proof (refresh_rejects stale w Hds Hu Hstale) as E1.
  pose proof (@lookup_email_store_token email user None _ Hu) as Hu1.
  split; [|split; [now rewrite E1|]].
  - destruct (create_access_token [("sub", email)] (auth w)) as [a s1] eqn:Ha.
    destruct (create_refresh_token [("sub", email)] s1) as [r s2] eqn:Hr.
    exists (bearer_pair a r).
    now rewrite (refresh_accepts valid w Hdv Hu Ht Ha Hr).
  - rewrite E1. cbn [snd].
    assert (E2 : refresh_token valid
                   (mkWorld (store_token user None (users w))
                            (blacklist w) (auth w))
                 = (inl (HTTPException 401 "Invalid refresh token"),
                    mkWorld
                      (store_token (User.set_refresh_token None user) None
                         (store_token user None (users w)))
                      (blacklist w) (auth w))).
    { apply (@refresh_rejects valid
               (mkWorld (store_token user None (users w)) (blacklist w) (auth w))
               email (User.set_refresh_token None user));
        [exact Hdv | exact Hu1 |].
      cbn. discriminate. }
    rewrite E2. cbn [fst snd users]. split; [reflexivity|].
    exact (@lookup_email_store_token email _ None _ Hu1).
Qed.

(** X10: the refresh token a login returns is accepted by the next
    refresh. After a successful login, when the returned refresh token
    decodes to the user's email and that email looks up the same user,
    refreshing with it returns the pair the service issues next and
    stores that pair's refresh token on the user's record. *)
Theorem login_then_refresh_accepted
    (body : OAuth2PasswordRequestForm.t) (scheme : string) (w : World S)
    (user : User.t) (a r a' r' : string) (s1 s2 s3 s4 : S) :
  lookup_username (OAuth2PasswordRequestForm.username body) (users w)
  = Some user ->
  verify_password (OAuth2PasswordRequestForm.password body)
                  (User.password user) = true ->
  User.ban user = false ->
  create_access_token [("sub", User.email user)] (auth w) = (a, s1) ->
  create_refresh_token [("sub", User.email user)] s1 = (r, s2) ->
  decode_refresh_token r s2 = inr (User.email user) ->
  lookup_email (User.email user) (users w) = Some user ->
  create_access_token [("sub", User.email user)] s2 = (a', s3) ->
  create_refresh_token [("sub", User.email user)] s3 = (r', s4) ->
  fst (login body w) = inr (bearer_pair a r)
  /\ fst (refresh_token (HTTPAuthorizationCredentials.mk scheme r)
            (snd (login body w)))
     = inr (bearer_pair a' r')
  /\ lookup_email (User.email user)
       (users (snd (refresh_token (HTTPAuthorizationCredentials.mk scheme r)
                      (snd (login body w)))))
     = Some (User.set_refresh_token (Some r') user).
Proof.
  intros Hn Hv Hb Ha Hr Hd He Ha' Hr'.
  assert (E : login body w
              = (inr (bearer_pair a r),
                 mkWorld (store_token user (Some r) (users w))
                         (blacklist w) s2)).
  { run_handler. rewrite Hn, Hv, Hb. cbn [negb]. rewrite Ha.
    cbn [users blacklist auth]. rewrite Hr. reflexivity. }
  rewrite E. cbn [fst snd]. split; [reflexivity|].
  pose proof (@lookup_email_store_token _ user (Some r) _ He) as He1.
  erewrite refresh_accepts; cbn [auth users HTTPAuthorizationCredentials.credentials];
    try eassumption; try reflexivity.
  cbn [fst snd users]. split; [reflexivity|].
  exact (@lookup_email_store_token _ _ (Some r') _ He1).
Qed.

(** X11: rotation chains. After a successful refresh, when the new
    refresh token decodes to the same email, refreshing with the new
    token succeeds again and stores the token issued then. *)
Theorem refresh_then_refresh_accepted
    (cred : HTTPAuthorizationCredentials.t) (scheme : string) (w : World S)
    (email : string) (user : User.t) (a r a' r' : string)
    (s1 s2 s3 s4 : S) :
  decode_refresh_token (HTTPAuthorizationCredentials.credentials cred) (auth w)
  = inr email ->
  lookup_email email (users w) = Some user ->
  User.refresh_token user = Some (HTTPAuthorizationCredentials.credentials cred) ->
  create_access_token [("sub", email)] (auth w) = (a, s1) ->
  create_refresh_token [("sub", email)] s1 = (r, s2) ->
  decode_refresh_token r s2 = inr email ->
  create_access_token [("sub", email)] s2 = (a', s3) ->
  create_refresh_token [("sub", email)] s3 = (r', s4) ->
  fst (refresh_token (HTTPAuthorizationCredentials.mk scheme r)
         (snd (refresh_token cred w)))
  = inr (bearer_pair a' r')
  /\ lookup_email email
       (users (snd (refresh_token (HTTPAuthorizationCredentials.mk scheme r)
                      (snd (refresh_token cred w)))))
     = Some (User.set_refresh_token (Some r') user).
Proof.
  intros Hd Hu Ht Ha Hr Hd' Ha' Hr'.
  rewrite (refresh_accepts cred w Hd Hu Ht Ha Hr). cbn [snd].
  pose proof (@lookup_email_store_token _ user (Some r) _ Hu) as Hu1.
  erewrite refresh_accepts; cbn [auth users HTTPAuthorizationCredentials.credentials];
    try eassumption; try reflexivity.
  cbn [fst snd users]. split; [reflexivity|].
  exact (@lookup_email_store_token _ _ (Some r') _ Hu1).
Qed.

(** X12: a refresh for one user leaves the others alone. Whether the
    refresh stores a new token or clears the stored one, a record with
    another id is found afterwards, under its email, exactly as it
    was. *)
Theorem refresh_leaves_other_users_alone
    (cred : HTTPAuthorizationCredentials.t) (w : World S)
    (email other : string) (user v : User.t) :
  decode_refresh_token (HTTPAuthorizationCredentials.credentials cred) (auth w)
  = inr email ->
  lookup_email email (users w) = Some user ->
  lookup_email other (users w) = Some v ->
  User.id v <> User.id user ->
  lookup_email other (users (snd (refresh_token cred w))) = Some v.
Proof.
  intros Hd Hu Hv Hid.
  assert (Hshape : exists t, users (snd (refresh_token cred w))
                             = store_token user t (users w)).
  { run_handler. rewrite Hd, Hu.
    destruct (token_ne _ _); [eexists; reflexivity|].
    destruct (create_access_token _ _) as [a s1]. cbn [users blacklist auth].
    destruct (create_refresh_token _ _) as [r s2]. eexists. reflexivity. }
  destruct Hshape as (t & ->).
  now apply lookup_email_store_token_other.
Qed.

End Sessions.

(* ================================================================= *)
(** * What a successful signup or refresh tells *)

Section Soundness.
Context {S : Type} {svc : Auth S}.
Import repositories_users.

(** X13: signup returns a record only for a username that was free.
    Whenever signup returns a record, no stored record had the body's
    username, the returned record is the one record added to the users
    table, it carries the body's username and email, its password field
    is what [get_password_hash] returned for the body's password, and
    the blacklist is as it was. *)
Theorem signup_success_means_username_was_free
    (body : UserSchema.t) (w w' : World S) (u : User.t) :
  signup body w = (inr u, w') ->
  lookup_username (UserSchema.full_name body) (users w) = None
  /\ users w' = (users w ++ [u])%list
  /\ User.full_name u = UserSchema.full_name body
  /\ User.email u = UserSchema.email body
  /\ get_password_hash (UserSchema.password body) (auth w)
     = (User.password u, auth w')
  /\ blacklist w' = blacklist w.
Proof.
  case_handler; intros H; try discriminate H.
  injection H as <- <-. repeat split.
Qed.

(** X14: signup fails in one way only. An exception raised by signup is
    the HTTP 409 "Account already exists", the username was stored
    already, and the store after it is the store before. *)
Theorem signup_failure_is_409_and_writes_nothing
    (body : UserSchema.t) (w w' : World S) (e : Exn) :
  signup body w = (inl e, w') ->
  e = HTTPException 409 "Account already exists"
  /\ w' = w
  /\ lookup_username (UserSchema.full_name body) (users w) <> None.
Proof.
  case_handler; intros H; try discriminate H.
  injection H as <- <-. repeat split. discriminate.
Qed.

(** X15: refresh hands out tokens only to the holder of the stored
    token. Whenever refresh returns a token pair, the presented token
    decoded to an email, a stored user has that email, that user's stored
    refresh token was the presented one, the pair's type is "bearer", the
    record found under the email afterwards holds the returned refresh
    token in its [refresh_token] field with its other columns as they
    were, and the blacklist is as it was. *)
Theorem refresh_success_means_token_was_stored
    (cred : HTTPAuthorizationCredentials.t) (w w' : World S)
    (tok : TokenSchema.t) :
  refresh_token cred w = (inr tok, w') ->
  exists (email : string) (user : User.t),
    decode_refresh_token (HTTPAuthorizationCredentials.credentials cred)
                         (auth w) = inr email
    /\ lookup_email email (users w) = Some user
    /\ User.refresh_token user
       = Some (HTTPAuthorizationCredentials.credentials cred)
    /\ TokenSchema.token_type tok = "bearer"
    /\ (exists stored : User.t,
          lookup_email email (users w') = Some stored
          /\ User.refresh_token stored = Some (TokenSchema.refresh_token tok)
          /\ account_columns stored = account_columns user)
    /\ blacklist w' = blacklist w.
Proof.
  run_handler.
  destruct (decode_refresh_token _ _) as [e|email] eqn:Hd;
    [intros H; discriminate H|].
  destruct (lookup_email email (users w)) as [user|] eqn:Hu;
    [|intros H; discriminate H].
  destruct (token_ne _ _) eqn:Hne; [intros H; discriminate H|].
  destruct (create_access_token _ _) as [a s1]. cbn [users blacklist auth].
  destruct (create_refresh_token _ _) as [r s2].
  intros H. injection H as <- <-.
  exists email, user. apply token_ne_false in Hne.
  split; [first [reflexivity | exact Hd]|].
  split; [first [reflexivity | exact Hu]|]. split; [exact Hne|].
  split; [reflexivity|]. split; [|reflexivity].
  cbn [users TokenSchema.refresh_token].
  exists (User.set_refresh_token (Some r) user).
  split; [lookup_after_store Hu|].
  split; reflexivity.
Qed.

End Soundness.

(* ================================================================= *)
(** * The properties above on concrete requests *)

Section MoreRuns.
Import Demo repositories_users.

Lemma usernames_stay_unique_witness :
  NoDup (map User.full_name
           (users (serve_all (svc := service)
                     [POST_signup (UserSchema.mk "carol" "carol@example.com" "pw3");
                      POST_signup (UserSchema.mk "carol" "c2@example.com" "pw4");
                      POST_login (OAuth2PasswordRequestForm.mk "alice" "pw1");
                      GET_refresh_token (bearer "refresh|bob@example.com|7");
                      POST_logout alice]
                     world0))).
Proof.
  apply (@usernames_stay_unique nat service).
  cbn. repeat constructor; cbn; intuition discriminate.
Defined.

Lemma refresh_decode_error_propagates_witness :
  refresh_token (svc := service) (bearer "not-a-token") world0
  = (inl (HTTPException 401 "Could not validate credentials"), world0).
Proof.
  apply (@refresh_decode_error_propagates nat service
           (bearer "not-a-token") world0).
  reflexivity.
Defined.

Lemma login_success_means_verified_and_unbanned_witness :
  exists user : User.t,
    lookup_username "alice" (users world0) = Some user
    /\ verify_password (Auth := service) "pw1" (User.password user) = true
    /\ User.ban user = false
    /\ exists stored : User.t,
         lookup_username "alice"
           (users (snd (login (svc := service)
                          (OAuth2PasswordRequestForm.mk "alice" "pw1") world0)))
         = Some stored
         /\ User.refresh_token stored = Some "refresh|alice@example.com|3".
Proof.
  destruct (@login_success_means_verified_and_unbanned nat service
              (OAuth2PasswordRequestForm.mk "alice" "pw1") world0
              (mkWorld
                 [User.mk 1 "alice@example.com" "alice" "hashed:pw1" false
                    (Some "refresh|alice@example.com|3");
                  bob]
                 [] 4%nat)
              (bearer_pair "access|alice@example.com|2"
                           "refresh|alice@example.com|3")
              eq_refl)
    as (user & Hu & Hv & Hb & _ & (stored & Hfound & Htoken & _) & _).
  exists user. repeat split; try assumption.
  exists stored. split; [exact Hfound | exact Htoken].
Defined.

Lemma login_failure_is_401_and_writes_nothing_witness :
  exists detail : string,
    HTTPException 401 "You were banned by an administrator"
    = HTTPException 401 detail.
Proof.
  destruct (@login_failure_is_401_and_writes_nothing nat service
              (OAuth2PasswordRequestForm.mk "bob" "pw2") world0 world0
              (HTTPException 401 "You were banned by an administrator")
              eq_refl) as (_ & H).
  exact H.
Defined.

Lemma stale_token_ends_valid_session_witness :
  fst (refresh_token (svc := service) (bearer "refresh|alice@example.com|9")
         world0)
  = inl (HTTPException 401 "Invalid refresh token")
  /\ fst (refresh_token (svc := service) (bearer "refresh|alice@example.com|0")
            (snd (refresh_token (svc := service)
                    (bearer "refresh|alice@example.com|9") world0)))
     = inl (HTTPException 401 "Invalid refresh token").
Proof.
  destruct (@stale_token_ends_valid_session nat service
              (bearer "refresh|alice@example.com|9")
              (bearer "refresh|alice@example.com|0")
              world0 "alice@example.com" alice
              eq_refl eq_refl eq_refl eq_refl)
    as (_ & H1 & H2 & _).
  - discriminate.
  - split; assumption.
Defined.

Lemma login_then_refresh_accepted_witness :
  fst (refresh_token (svc := service)
         (bearer "refresh|alice@example.com|3")
         (snd (login (svc := service)
                 (OAuth2PasswordRequestForm.mk "alice" "pw1") world0)))
  = inr (bearer_pair "access|alice@example.com|4"
                     "refresh|alice@example.com|5").
Proof.
  destruct (@login_then_refresh_accepted nat service
              (OAuth2PasswordRequestForm.mk "alice" "pw1") "Bearer" world0
              alice
              "access|alice@example.com|2" "refresh|alice@example.com|3"
              "access|alice@example.com|4" "refresh|alice@example.com|5"
              3%nat 4%nat 5%nat 6%nat
              eq_refl eq_refl eq_refl eq_refl eq_refl eq_refl eq_refl
              eq_refl eq_refl)
    as (_ & H & _).
  exact H.
Defined.

Lemma refresh_then_refresh_accepted_witness :
  fst (refresh_token (svc := service)
         (bearer "refresh|alice@example.com|3")
         (snd (refresh_token (svc := service)
                 (bearer "refresh|alice@example.com|0") world0)))
  = inr (bearer_pair "access|alice@example.com|4"
                     "refresh|alice@example.com|5").
Proof.
  destruct (@refresh_then_refresh_accepted nat service
              (bearer "refresh|alice@example.com|0") "Bearer" world0
              "alice@example.com" alice
              "access|alice@example.com|2" "refresh|alice@example.com|3"
              "access|alice@example.com|4" "refresh|alice@example.com|5"
              3%nat 4%nat 5%nat 6%nat
              eq_refl eq_refl eq_refl eq_refl eq_refl eq_refl eq_refl eq_refl)
    as (H & _).
  exact H.
Defined.

Lemma refresh_leaves_other_users_alone_witness :
  lookup_email "bob@example.com"
    (users (snd (refresh_token (svc := service)
                   (bearer "refresh|alice@example.com|9") world0)))
  = Some bob.
Proof.
  apply (@refresh_leaves_other_users_alone nat service
           (bearer "refresh|alice@example.com|9") world0
           "alice@example.com" "bob@example.com" alice bob);
    [reflexivity | reflexivity | reflexivity | discriminate].
Defined.

End MoreRuns.

Section SoundnessRuns.
Import Demo repositories_users.

Lemma signup_success_means_username_was_free_witness :
  lookup_username "carol" (users world0) = None
  /\ get_password_hash (Auth := service) "pw3" 2%nat = ("hashed:pw3", 2%nat).
Proof.
  destruct (@signup_success_means_username_was_free nat service
              (UserSchema.mk "carol" "carol@example.com" "pw3") world0
              (mkWorld
                 [alice; bob;
                  User.mk 3 "carol@example.com" "carol" "hashed:pw3" false None]
                 [] 2%nat)
              (User.mk 3 "carol@example.com" "carol" "hashed:pw3" false None)
              eq_refl)
    as (Hfree & _ & _ & _ & Hhash & _).
  split; [exact Hfree | exact Hhash].
Defined.

Lemma signup_failure_is_409_and_writes_nothing_witness :
  lookup_username "bob" (users world0) <> None.
Proof.
  destruct (@signup_failure_is_409_and_writes_nothing nat service
              (UserSchema.mk "bob" "b2@example.com" "pw5") world0 world0
              (HTTPException 409 "Account already exists") eq_refl)
    as (_ & _ & H).
  exact H.
Defined.

Lemma refresh_success_means_token_was_stored_witness :
  exists (email : string) (user : User.t),
    lookup_email email (users world0) = Some user
    /\ User.refresh_token user = Some "refresh|bob@example.com|1"
    /\ exists stored : User.t,
         lookup_email email
           (users (snd (refresh_token (svc := service)
                          (bearer "refresh|bob@example.com|1") world0)))
         = Some stored
         /\ User.refresh_token stored = Some "refresh|bob@example.com|3".
Proof.
  destruct (@refresh_success_means_token_was_stored nat service
              (bearer "refresh|bob@example.com|1") world0
              (mkWorld
                 [alice;
                  User.mk 2 "bob@example.com" "bob" "hashed:pw2" true
                    (Some "refresh|bob@example.com|3")]
                 [] 4%nat)
              (bearer_pair "access|bob@example.com|2"
                           "refresh|bob@example.com|3")
              eq_refl)
    as (email & user & _ & Hu & Ht & _ & (stored & Hfound & Htoken & _) & _).
  exists email, user. split; [exact Hu|]. split; [exact Ht|].
  exists stored. split; [exact Hfound | exact Htoken].
Defined.

End SoundnessRuns.

(* ================================================================= *)
(** * Signups in flight at the same time *)

Section Race.
Context {S : Type} {svc : Auth S}.
Import repositories_users.

(** The handler is its two phases run back to back. *)
Lemma signup_is_check_then_create (body : UserSchema.t) (w : World S) :
  signup body w = (signup_check body ;;; signup_create body) w.
Proof.
  unfold signup, signup_check, signup_create, bind, ret, raise,
    get_user_by_username.
  now destruct (lookup_username (UserSchema.full_name body) (users w)).
Qed.

(** X16: the existence check of signup does not hold across its awaits.
    When two signups for one free username overlap so that both lookups
    are answered before either record is created, neither is answered
    409: both succeed, two records are appended, and they share the
    username. *)
Theorem overlapping_signups_store_a_username_twice
    (body1 body2 : UserSchema.t) (w w' : World S) (r : Exn + User.t * User.t) :
  lookup_username (UserSchema.full_name body1) (users w) = None ->
  UserSchema.full_name body2 = UserSchema.full_name body1 ->
  overlapping_signups body1 body2 w = (r, w') ->
  exists user1 user2 : User.t,
    r = inr (user1, user2)
    /\ users w' = (users w ++ [user1; user2])%list
    /\ User.full_name user1 = UserSchema.full_name body1
    /\ User.full_name user2 = UserSchema.full_name body1
    /\ ~ NoDup (map User.full_name (users w')).
Proof.
  intros Hfree Hsame. unfold overlapping_signups, signup_check, signup_create.
  run_handler. rewrite Hfree. cbn [users blacklist auth].
  rewrite Hsame, Hfree. cbn [users blacklist auth].
  destruct (get_password_hash (UserSchema.password body1) (auth w))
    as [h1 s1]. cbn [users blacklist auth].
  destruct (get_password_hash (UserSchema.password body2) s1) as [h2 s2].
  cbn [users blacklist auth]. intros H. injection H as <- <-.
  do 2 eexists. split; [reflexivity|]. cbn [users].
  split; [now rewrite <- app_assoc|].
  split; [reflexivity|]. split; [exact Hsame|].
  rewrite <- app_assoc, map_app. cbn [map app new_record User.full_name
    UserSchema.full_name UserSchema.set_password].
  rewrite Hsame. intros Hnd. apply NoDup_remove_2 in Hnd.
  apply Hnd. rewrite in_app_iff. right. now left.
Qed.

End Race.

Section RaceRuns.
Import Demo repositories_users.

Lemma overlapping_signups_store_a_username_twice_witness :
  exists user1 user2 : User.t,
    users (snd (overlapping_signups (svc := service)
                  (UserSchema.mk "carol" "carol@example.com" "pw3")
                  (UserSchema.mk "carol" "c2@example.com" "pw4") world0))
    = [alice; bob; user1; user2]
    /\ User.full_name user1 = "carol"
    /\ User.full_name user2 = "carol".
Proof.
  destruct (@overlapping_signups_store_a_username_twice nat service
              (UserSchema.mk "carol" "carol@example.com" "pw3")
              (UserSchema.mk "carol" "c2@example.com" "pw4") world0
              _ _ eq_refl eq_refl
              (surjective_pairing _))
    as (user1 & user2 & _ & Husers & H1 & H2 & _).
  exists user1, user2. split; [exact Husers|]. split; assumption.
Defined.

End RaceRuns.
